(** * dbt-lambda-starter: the Lambda handler of [src/dbt/handler.py]

    A shallow embedding of the handler module and the properties of its
    two parts: the synchronisation-primitive shim installed by
    [patch_multiprocessing], and the state-continuity controller
    ([restore_target_from_s3], [sync_target_to_s3], [handler]). *)

From Stdlib Require Import ZArith.
From stdpp Require Import base option list strings gmap.

Local Open Scope string_scope.
Local Open Scope list_scope.
Local Open Scope Z_scope.

(** ** Python values shared by both parts *)

(** A raised exception, by class name and [str(e)].  Every class that
    occurs here derives from [Exception]. *)
Record exn := PyExc { exc_class : string; exc_msg : string }.

Definition Exception (msg : string) : exn := PyExc "Exception" msg.
Definition ValueError (msg : string) : exn := PyExc "ValueError" msg.
Definition RuntimeError (msg : string) : exn := PyExc "RuntimeError" msg.

(** * The synchronisation-primitive shim (lines 9-85) *)

Module Shim.

(** What a call on a primitive does, seen from the calling thread: it
    returns a value and leaves the primitive in a new state, it raises,
    or it waits for another thread (and, alone, waits for ever). *)
Inductive outcome (S V : Type) : Type :=
| Returns (v : V) (s : S)
| Raises (e : exn) (s : S)
| Blocks.
Arguments Returns {S V} v s.
Arguments Raises {S V} e s.
Arguments Blocks {S V}.

(** What a constructor call does: it builds the object or raises. *)
Inductive constructed (S : Type) : Type :=
| Built (s : S)
| Fails (e : exn).
Arguments Built {S} s.
Arguments Fails {S} e.

Definition raised {S V} (o : outcome S V) : bool :=
  match o with Raises _ _ => true | _ => false end.

(** Thread identifiers, as [threading.get_ident()] gives them. *)
Definition thread := nat.

(** ** The [threading] primitives the mock classes wrap

    The state each object of Python's [threading] module holds, and its
    documented behaviour.  [acquire] is the blocking call (no timeout),
    which is what [__enter__] makes. *)

(** [threading.Lock]: locked or not; any thread may release it. *)
Record Lock := mkLock { locked : bool }.

Definition Lock_new : Lock := mkLock false.

Definition Lock_acquire (l : Lock) : outcome Lock bool :=
  if locked l then Blocks else Returns true (mkLock true).

Definition Lock_release (l : Lock) : outcome Lock unit :=
  if locked l then Returns tt (mkLock false)
  else Raises (RuntimeError "release unlocked lock") l.

(** [threading.RLock]: the owning thread and its recursion level. *)
Record RLock := mkRLock { owner : option thread; count : nat }.

Definition RLock_new : RLock := mkRLock None 0.

Definition RLock_acquire (me : thread) (l : RLock) : outcome RLock bool :=
  match owner l with
  | None => Returns true (mkRLock (Some me) 1)
  | Some t =>
      if Nat.eqb t me then Returns true (mkRLock (Some me) (S (count l)))
      else Blocks
  end.

Definition RLock_release (me : thread) (l : RLock) : outcome RLock unit :=
  match owner l, count l with
  | Some t, S n =>
      if Nat.eqb t me then
        Returns tt (match n with O => mkRLock None 0 | _ => mkRLock (Some me) n end)
      else Raises (RuntimeError "cannot release un-acquired lock") l
  | _, _ => Raises (RuntimeError "cannot release un-acquired lock") l
  end.

(** [threading.Semaphore] and [threading.BoundedSemaphore]: the counter,
    and for the bounded kind the initial value it may not exceed. *)
Record Semaphore := mkSemaphore { _value : Z }.

Definition Semaphore_new (value : Z) : constructed Semaphore :=
  if value <? 0 then Fails (ValueError "semaphore initial value must be >= 0")
  else Built (mkSemaphore value).

Definition Semaphore_acquire (s : Semaphore) : outcome Semaphore bool :=
  if _value s =? 0 then Blocks else Returns true (mkSemaphore (_value s - 1)).

Definition Semaphore_release (s : Semaphore) : outcome Semaphore unit :=
  Returns tt (mkSemaphore (_value s + 1)).

Record BoundedSemaphore := mkBounded { _sem_value : Z; _initial_value : Z }.

Definition BoundedSemaphore_new (value : Z) : constructed BoundedSemaphore :=
  if value <? 0 then Fails (ValueError "semaphore initial value must be >= 0")
  else Built (mkBounded value value).

Definition BoundedSemaphore_acquire (s : BoundedSemaphore)
  : outcome BoundedSemaphore bool :=
  if _sem_value s =? 0 then Blocks
  else Returns true (mkBounded (_sem_value s - 1) (_initial_value s)).

Definition BoundedSemaphore_release (s : BoundedSemaphore)
  : outcome BoundedSemaphore unit :=
  if _initial_value s <? _sem_value s + 1
  then Raises (ValueError "Semaphore released too many times") s
  else Returns tt (mkBounded (_sem_value s + 1) (_initial_value s)).

(** ** The four mock classes

    Each wraps one [threading] object, its field [_lock] or [_sem], and
    forwards to it.  The constructors take [*args, **kwargs] (here any
    list of positional and of keyword arguments over any type of values:
    the context and the other parameters of the inter-process classes)
    and drop them; the semaphores take [value] before them, 1 when it is
    not given. *)
Record MockRLock := mkMockRLock { rl_lock : RLock }.
Record MockLock := mkMockLock { l_lock : Lock }.
Record MockSemaphore := mkMockSemaphore { s_sem : Semaphore }.
Record MockBoundedSemaphore := mkMockBounded { b_sem : BoundedSemaphore }.

Definition wrapped {S T} (wrap : S -> T) (c : constructed S) : constructed T :=
  match c with Built s => Built (wrap s) | Fails e => Fails e end.

Section Mocks.
Context {PyObj : Type}.
Implicit Types (args : list PyObj) (kwargs : list (string * PyObj)).

Definition MockRLock_init args kwargs : constructed MockRLock :=
  Built (mkMockRLock RLock_new).

Definition MockLock_init args kwargs : constructed MockLock :=
  Built (mkMockLock Lock_new).

Definition MockSemaphore_init (value : option Z) args kwargs
  : constructed MockSemaphore :=
  wrapped mkMockSemaphore (Semaphore_new (default 1 value)).

Definition MockBoundedSemaphore_init (value : option Z) args kwargs
  : constructed MockBoundedSemaphore :=
  wrapped mkMockBounded (BoundedSemaphore_new (default 1 value)).
End Mocks.

(** Forwarding a call to the wrapped object. *)
Definition forward {S T V} (wrap : S -> T) (o : outcome S V) : outcome T V :=
  match o with
  | Returns v s => Returns v (wrap s)
  | Raises e s => Raises e (wrap s)
  | Blocks => Blocks
  end.

Definition MockRLock_enter (me : thread) (m : MockRLock) : outcome MockRLock bool :=
  forward mkMockRLock (RLock_acquire me (rl_lock m)).
Definition MockRLock_exit (me : thread) (m : MockRLock) : outcome MockRLock unit :=
  forward mkMockRLock (RLock_release me (rl_lock m)).
Definition MockRLock_acquire := MockRLock_enter.
Definition MockRLock_release := MockRLock_exit.
Definition MockRLock_is_owned (me : thread) (m : MockRLock) : bool := true.

Definition MockLock_enter (m : MockLock) : outcome MockLock bool :=
  forward mkMockLock (Lock_acquire (l_lock m)).
Definition MockLock_exit (m : MockLock) : outcome MockLock unit :=
  forward mkMockLock (Lock_release (l_lock m)).
Definition MockLock_acquire := MockLock_enter.
Definition MockLock_release := MockLock_exit.

Definition MockSemaphore_enter (m : MockSemaphore) : outcome MockSemaphore bool :=
  forward mkMockSemaphore (Semaphore_acquire (s_sem m)).
Definition MockSemaphore_exit (m : MockSemaphore) : outcome MockSemaphore unit :=
  forward mkMockSemaphore (Semaphore_release (s_sem m)).
Definition MockSemaphore_acquire := MockSemaphore_enter.
Definition MockSemaphore_release := MockSemaphore_exit.

Definition MockBoundedSemaphore_enter (m : MockBoundedSemaphore)
  : outcome MockBoundedSemaphore bool :=
  forward mkMockBounded (BoundedSemaphore_acquire (b_sem m)).
Definition MockBoundedSemaphore_exit (m : MockBoundedSemaphore)
  : outcome MockBoundedSemaphore unit :=
  forward mkMockBounded (BoundedSemaphore_release (b_sem m)).
Definition MockBoundedSemaphore_acquire := MockBoundedSemaphore_enter.
Definition MockBoundedSemaphore_release := MockBoundedSemaphore_exit.

(** ** Scoped acquisition: the [with] statement

    [with obj: body] calls [__enter__], runs the body, and calls
    [__exit__] whether the body returned or raised.  [__exit__] of the
    four classes returns what [release] returns, [None], so an exception
    of the body is raised again once the primitive is released. *)
Definition scoped {S E V X} (enter : S -> outcome S E) (exit : S -> outcome S X)
    (body : S -> outcome S V) (s : S) : outcome S V :=
  match enter s with
  | Returns _ s1 =>
      match body s1 with
      | Returns v s2 =>
          match exit s2 with
          | Returns _ s3 => Returns v s3
          | Raises e s3 => Raises e s3
          | Blocks => Blocks
          end
      | Raises e s2 =>
          match exit s2 with
          | Returns _ s3 => Raises e s3
          | Raises e' s3 => Raises e' s3
          | Blocks => Blocks
          end
      | Blocks => Blocks
      end
  | Raises e s1 => Raises e s1
  | Blocks => Blocks
  end.

(** The empty body, [pass]. *)
Definition pass {S} (s : S) : outcome S unit := Returns tt s.

(** The states a primitive can be in: for a bounded semaphore the
    counter stays between 0 and the initial value, for a semaphore it
    stays non-negative, a re-entrant lock is owned exactly when its level
    is positive. *)
Definition RLock_wf (l : RLock) : Prop :=
  match owner l with None => count l = 0%nat | Some _ => (0 < count l)%nat end.
Definition Semaphore_wf (s : Semaphore) : Prop := 0 <= _value s.
Definition BoundedSemaphore_wf (s : BoundedSemaphore) : Prop :=
  0 <= _sem_value s <= _initial_value s.

End Shim.

(** * The state-continuity controller (lines 100-263) *)

(** ** What the module talks to *)

(** [subprocess.CompletedProcess], with [capture_output] and [text]. *)
Record CompletedProcess :=
  mkCompleted { returncode : Z; stdout : string; stderr : string }.

(** [subprocess.run(..., check=False)] hands back the finished process
    whatever its exit code, or raises (the program is missing, its
    output does not decode): an [OSError], [ValueError] or the like, all
    of them [Exception]s. *)
Inductive run_outcome :=
| Completed (p : CompletedProcess)
| RunRaises (e : exn).

(** [dbtRunnerResult], of which the handler reads the success flag. *)
Record dbtRunnerResult := mkResult { success : bool }.

(** Everything outside the process (the local directories under /tmp,
    the bucket, the warehouse) is a state [Ext] that only the three
    external calls read and change.  The tool runs inside the process:
    besides its arguments it reads [os.environ], the variables set for
    it at lines 106-109 among them, so [dbt_invoke] is given the
    environment variables as they are at the call. *)
Class Externals (Ext : Type) := {
  os_makedirs : string -> Ext -> Ext;
  subprocess_run : list string -> Ext -> run_outcome * Ext;
  dbt_invoke : gmap string string -> list string -> Ext -> dbtRunnerResult * Ext
}.

(** The response dict [{"statusCode": ..., "body": ...}]. *)
Record response := mkResponse { statusCode : Z; body : string }.

(** ** Module-level code *)

(** Lines 115-126, with [os.environ] as it is when the module loads. *)
Definition make_default_args (env : gmap string string) : list string :=
  [ "--target"; "dev";
    "--log-path"; "/tmp/logs";
    "--target-path"; "/tmp/target";
    "--target"; default "dev" (env !! "ENVIRONMENT");
    "--profiles-dir"; "." ].

(** Lines 106-109. *)
Definition set_environ (env : gmap string string) : gmap string string :=
  <["DBT_USER_CONFIG_DIR" := "/tmp"]>
    (<["DBT_PROFILES_DIR" := "."]>
       (<["DBT_TARGET_PATH" := "/tmp/target"]>
          (<["DBT_LOG_PATH" := "/tmp/logs"]> env))).

(** The argument list read as option/value pairs, the values given to
    one option in the order they appear, and the one that takes effect:
    for an option given several times the command line keeps the last. *)
Fixpoint options (args : list string) : list (string * string) :=
  match args with
  | k :: v :: rest => (k, v) :: options rest
  | _ => []
  end.

Definition option_values (opt : string) (args : list string) : list string :=
  snd <$> filter (fun kv => fst kv = opt) (options args).

Definition effective (opt : string) (args : list string) : option string :=
  last (option_values opt args).

(** A path pinned to the writable mount: /tmp itself or below it. *)
Definition under_tmp (p : string) : bool :=
  String.eqb p "/tmp" || String.prefix "/tmp/" p.

(** [dict.get(key, default)] on the event. *)
Definition dict_get {V} (d : gmap string V) (key : string) (dflt : V) : V :=
  default dflt (d !! key).

(** Truth value and [str()] of what [os.getenv] returns. *)
Definition truthy (o : option string) : bool :=
  match o with
  | None => false
  | Some s => negb (String.eqb s "")
  end.

Definition fmt (o : option string) : string :=
  match o with None => "None" | Some s => s end.

(** [sep.join(l)] *)
Definition join (sep : string) (l : list string) : string := String.concat sep l.

(** ** The running process *)

(** Statements either complete with a value or raise. *)
Inductive result (A : Type) : Type :=
| Ok (a : A)
| Raised (e : exn).
Arguments Ok {A} a.
Arguments Raised {A} e.

(** The invocation request: a dict from keys to token lists. *)
Abbreviation Event := (gmap string (list string)).

Section Controller.
Context {Ext Ctx : Type} {EX : Externals Ext}.

(** A line written by [print]: a text, or the text followed by the
    [repr] of the event or of the context object. *)
Inductive line :=
| Text (s : string)
| ShowEvent (label : string) (event : Event)
| ShowContext (label : string) (context : Ctx).

(** The interpreter state the module reads and writes, together with a
    trace of what left the process: the lines printed, the argument
    vectors given to [subprocess.run], and those given to [dbt.invoke]. *)
Record World := mkWorld {
  environ : gmap string string;
  default_args : list string;
  ext : Ext;
  printed : list line;
  spawned : list (list string);
  invoked : list (list string)
}.

(** The state of the process once the module is loaded (lines 100-126). *)
Definition load (env : gmap string string) (x : Ext) : World :=
  {| environ := set_environ env;
     default_args := make_default_args (set_environ env);
     ext := os_makedirs "/tmp/target-base"
              (os_makedirs "/tmp/target" (os_makedirs "/tmp/logs" x));
     printed := [];
     spawned := [];
     invoked := [] |}.

Definition M (A : Type) : Type := World -> result A * World.

Definition ret {A} (a : A) : M A := fun w => (Ok a, w).

Definition bind {A B} (m : M A) (k : A -> M B) : M B :=
  fun w => match m w with
           | (Ok a, w') => k a w'
           | (Raised e, w') => (Raised e, w')
           end.

Definition raise {A} (e : exn) : M A := fun w => (Raised e, w).

(** [try: body except Exception as e: handle e] *)
Definition try_except {A} (body : M A) (handle : exn -> M A) : M A :=
  fun w => match body w with
           | (Ok a, w') => (Ok a, w')
           | (Raised e, w') => handle e w'
           end.

Notation "'let*' x ':=' m 'in' k" := (bind m (fun x => k))
  (at level 10, x name, m at level 100, k at level 200, only parsing).
Notation "m ;; k" := (bind m (fun _ => k))
  (at level 100, k at level 200, right associativity, only parsing).

Definition getenv (key : string) : M (option string) :=
  fun w => (Ok (environ w !! key), w).

Definition getenv_or (key dflt : string) : M string :=
  fun w => (Ok (default dflt (environ w !! key)), w).

(** The world with one more line on standard output. *)
Definition logged (l : line) (w : World) : World :=
  {| environ := environ w; default_args := default_args w;
     ext := ext w; printed := printed w ++ [l];
     spawned := spawned w; invoked := invoked w |}.

Definition print (l : line) : M unit := fun w => (Ok tt, logged l w).

Definition say (s : string) : M unit := print (Text s).

Definition read_default_args : M (list string) :=
  fun w => (Ok (default_args w), w).

(** [subprocess.run(argv, capture_output=True, text=True, check=False)] *)
Definition run (argv : list string) : M CompletedProcess :=
  fun w =>
    let '(o, x) := subprocess_run argv (ext w) in
    let w' := {| environ := environ w; default_args := default_args w;
                 ext := x; printed := printed w;
                 spawned := spawned w ++ [argv]; invoked := invoked w |} in
    match o with
    | Completed p => (Ok p, w')
    | RunRaises e => (Raised e, w')
    end.

(** [dbt.invoke(args)] *)
Definition invoke (args : list string) : M dbtRunnerResult :=
  fun w =>
    let '(res, x) := dbt_invoke (environ w) args (ext w) in
    (Ok res, {| environ := environ w; default_args := default_args w;
                ext := x; printed := printed w;
                spawned := spawned w; invoked := invoked w ++ [args] |}).

(** The remote prefix, [f"s3://{dbt_state_bucket}/{environment}/target/"]. *)
Definition s3_path_of (dbt_state_bucket : option string) (environment : string)
  : string :=
  "s3://" +:+ fmt dbt_state_bucket +:+ "/" +:+ environment +:+ "/target/".

(** Lines 129-168. *)
Definition restore_target_from_s3 : M unit :=
  let* dbt_state_bucket := getenv "DBT_STATE_BUCKET" in
  let* environment := getenv_or "ENVIRONMENT" "dev" in
  if negb (truthy dbt_state_bucket) then
    say "INFO: DBT_STATE_BUCKET not set. Starting with clean state."
  else
    try_except
      (let s3_path := s3_path_of dbt_state_bucket environment in
       say ("Restoring previous dbt state from " +:+ s3_path);;
       let* result :=
         run ["aws"; "s3"; "sync"; s3_path; "/tmp/target-base"; "--quiet"] in
       if returncode result =? 0 then
         say "✓ Successfully restored previous state to /tmp/target-base"
       else
         say "INFO: No previous state found in S3 (first run or empty bucket)")
      (fun e => say ("INFO: Failed to restore state from S3: " +:+ exc_msg e)).

(** Lines 171-212. *)
Definition sync_target_to_s3 : M unit :=
  let* dbt_state_bucket := getenv "DBT_STATE_BUCKET" in
  let* environment := getenv_or "ENVIRONMENT" "dev" in
  if negb (truthy dbt_state_bucket) then
    say "WARNING: DBT_STATE_BUCKET not set. Skipping state sync."
  else
    try_except
      (let s3_path := s3_path_of dbt_state_bucket environment in
       say ("Syncing dbt target to " +:+ s3_path);;
       let* result :=
         run ["aws"; "s3"; "sync"; "/tmp/target"; s3_path; "--delete"; "--quiet"] in
       if returncode result =? 0 then
         say ("✓ Successfully synced dbt target to " +:+ s3_path)
       else
         say "WARNING: Failed to sync target to S3";;
         say ("stdout: " +:+ stdout result);;
         say ("stderr: " +:+ stderr result))
      (fun e => say ("ERROR: Failed to sync target to S3: " +:+ exc_msg e)).

(** Lines 246-247: the command and the extra arguments of a request. *)
Definition command_of (event : Event) : list string :=
  dict_get event "command" ["build"].

Definition cli_args_of (event : Event) : list string :=
  dict_get event "cli_args" ["--select"; "+my_second_dbt_model"].

(** Lines 215-263.  The calls of [restore_target_from_s3] (line 243) and
    of [sync_target_to_s3] (line 258) are commented out in the source. *)
Definition handler (event : Event) (context : Ctx) : M response :=
  print (ShowEvent "Event:" event);;
  print (ShowContext "Context:" context);;
  let command := command_of event in
  let cli_args := cli_args_of event in
  say ("Running dbt " +:+ join " " command +:+ " " +:+ join " " cli_args);;
  let* fixed := read_default_args in
  let* res := invoke (command ++ fixed ++ cli_args) in
  (if success res then
     say "✓ DBT build succeeded";;
     say "Uploading state to S3..."
   else
     say "✗ DBT build failed";;
     raise (Exception "DBT build failed"));;
  ret {| statusCode := if success res then 200 else 500;
         body := "DBT build completed" |}.

(** The argument list the handler builds for a request (line 252), and
    the tool's answer to it in the world the handler runs in. *)
Definition tool_args (event : Event) (w : World) : list string :=
  command_of event ++ default_args w ++ cli_args_of event.

Definition tool_result (event : Event) (w : World) : dbtRunnerResult :=
  fst (dbt_invoke (environ w) (tool_args event w) (ext w)).

End Controller.

Arguments line : clear implicits.
Arguments World : clear implicits.

(** ** Concrete surroundings

    A small outside world to run the module in: the state counts the
    transfers that reached the bucket; the tool succeeds or fails, the
    transfer command exits with a given code or cannot be started. *)
Definition surroundings (tool_ok : bool) (aws : run_outcome) : Externals nat := {|
  os_makedirs := fun _ x => x;
  subprocess_run := fun _ x =>
    (aws, match aws with Completed p => if returncode p =? 0 then S x else x
                    | RunRaises _ => x end);
  dbt_invoke := fun _ _ x => (mkResult tool_ok, x)
|}.

Definition aws_exit (code : Z) : run_outcome :=
  Completed (mkCompleted code "" (if code =? 0 then "" else "fatal error")).

(** A tool that reads the environment: it succeeds when
    DBT_PROFILES_DIR is the working directory, where the profiles are. *)
Definition reading_profiles_dir : Externals nat := {|
  os_makedirs := fun _ x => x;
  subprocess_run := fun _ x => (aws_exit 0, x);
  dbt_invoke := fun env _ x =>
    (mkResult (bool_decide (env !! "DBT_PROFILES_DIR" = Some ".")), x)
|}.

Definition aws_missing : run_outcome :=
  RunRaises (PyExc "FileNotFoundError"
               "[Errno 2] No such file or directory: 'aws'").

(** The process loaded with a bucket configured, and with none. *)
Definition with_bucket (EX : Externals nat) : World nat unit :=
  load (EX := EX) {[ "DBT_STATE_BUCKET" := "state-bucket" ]} 0%nat.

Definition without_bucket (EX : Externals nat) : World nat unit :=
  load (EX := EX) ∅ 0%nat.

(** The two requests of the spec's scenarios, and one with the command
    given as an empty list. *)
Definition empty_event : Event := ∅.

Definition run_event : Event :=
  <["cli_args" := ["--select"; "model_x"]]> {[ "command" := ["run"] ]}.

Definition no_command_event : Event := {[ "command" := [] ]}.

(** * The rest of the module *)

(** ** Using the shimmed primitives *)

Section ShimUse.
Import Shim.

(** [with lock:] nested [depth] times by one thread around an empty
    body. *)
Fixpoint nested_with (me : thread) (depth : nat)
  : MockRLock -> outcome MockRLock unit :=
  match depth with
  | O => pass
  | S d => scoped (MockRLock_enter me) (MockRLock_exit me) (nested_with me d)
  end.

(** [sem.acquire()] called [n] times in a row by a thread that releases
    nothing in between. *)
Fixpoint acquire_times (n : nat) (m : MockSemaphore)
  : outcome MockSemaphore bool :=
  match n with
  | O => Returns true m
  | S k =>
      match MockSemaphore_acquire m with
      | Returns _ m' => acquire_times k m'
      | Raises e m' => Raises e m'
      | Blocks => Blocks
      end
  end.

(** A caller's sequence of [acquire()] and [release()] calls on a
    bounded semaphore.  A call that raises leaves the caller running (it
    may catch the exception), a call that blocks ends the sequence. *)
Inductive sem_call := Acquire | Release.

Definition bounded_call (c : sem_call) (m : MockBoundedSemaphore)
  : outcome MockBoundedSemaphore unit :=
  match c with
  | Acquire =>
      match MockBoundedSemaphore_acquire m with
      | Returns _ m' => Returns tt m'
      | Raises e m' => Raises e m'
      | Blocks => Blocks
      end
  | Release => MockBoundedSemaphore_release m
  end.

Fixpoint bounded_after (cs : list sem_call) (m : MockBoundedSemaphore)
  : option MockBoundedSemaphore :=
  match cs with
  | [] => Some m
  | c :: rest =>
      match bounded_call c m with
      | Returns _ m' => bounded_after rest m'
      | Raises _ m' => bounded_after rest m'
      | Blocks => None
      end
  end.

End ShimUse.

(** ** Installing the shim (lines 79-82)

    The attributes of the module [multiprocessing.synchronize] as a dict
    from names to classes: the classes the module came with, or mock
    classes.  The four [class] statements are in the body of
    [patch_multiprocessing] (lines 12-77), so every call defines four
    new classes: a mock class is known by its kind and by the call that
    defined it, and the state counts the calls made so far. *)
Inductive mock_kind :=
| RLockKind
| LockKind
| SemaphoreKind
| BoundedSemaphoreKind.

Inductive sync_class :=
| Original (name : string)
| Mock (kind : mock_kind) (call : nat).

Record sync_state := mkSync {
  patch_calls : nat;
  attributes : gmap string sync_class
}.

Definition patch_multiprocessing (s : sync_state) : sync_state :=
  let MockRLock := Mock RLockKind (patch_calls s) in
  let MockLock := Mock LockKind (patch_calls s) in
  let MockSemaphore := Mock SemaphoreKind (patch_calls s) in
  let MockBoundedSemaphore := Mock BoundedSemaphoreKind (patch_calls s) in
  {| patch_calls := S (patch_calls s);
     attributes :=
       <["BoundedSemaphore" := MockBoundedSemaphore]>
         (<["Semaphore" := MockSemaphore]>
            (<["Lock" := MockLock]>
               (<["RLock" := MockRLock]> (attributes s)))) |}.

(** ** The imports (lines 4 and 88-96)

    The modules that can be imported, each under its dotted name and
    with its attributes; the packages above a module that can be
    imported can be imported too.  [import m] raises
    [ModuleNotFoundError] when there is no module [m], and the message
    names the first package on the way to [m] that is missing;
    [from m import name] raises it too, and raises [ImportError] when
    the module has no attribute [name] (the name imported here is a
    class, not a submodule; the file name that ends the message is left
    out).  Both are caught by [except ImportError]. *)

(** The dotted prefixes of a module name, shortest first:
    [a], [a.b], [a.b.c] for [a.b.c] (character 46 is the dot). *)
Fixpoint dotted_prefixes_from (seen rest : string) : list string :=
  match rest with
  | EmptyString => [seen]
  | String c rest' =>
      if Ascii.eqb c (Ascii.ascii_of_nat 46)
      then seen :: dotted_prefixes_from (seen +:+ ".") rest'
      else dotted_prefixes_from (seen +:+ String c EmptyString) rest'
  end.

Definition dotted_prefixes (m : string) : list string :=
  dotted_prefixes_from "" m.

Section Imports.
Context {PyObj : Type}.

(** A package is there when it, or a module below it, can be imported. *)
Definition package_known (modules : gmap string (gmap string PyObj)) (p : string)
  : bool :=
  existsb (fun entry => String.eqb (fst entry) p
                        || String.prefix (p +:+ ".") (fst entry))
    (map_to_list modules).

Definition first_missing (modules : gmap string (gmap string PyObj)) (m : string)
  : string :=
  default m (List.find (fun p => negb (package_known modules p))
               (dotted_prefixes m)).

Definition import_module (modules : gmap string (gmap string PyObj)) (m : string)
  : result (gmap string PyObj) :=
  match modules !! m with
  | Some attrs => Ok attrs
  | None =>
      Raised (PyExc "ModuleNotFoundError"
                ("No module named '" +:+ first_missing modules m +:+ "'"))
  end.

Definition import_from (modules : gmap string (gmap string PyObj)) (m name : string)
  : result PyObj :=
  match import_module modules m with
  | Ok attrs =>
      match attrs !! name with
      | Some v => Ok v
      | None =>
          Raised (PyExc "ImportError"
                    ("cannot import name '" +:+ name +:+ "' from '" +:+ m +:+ "'"))
      end
  | Raised e => Raised e
  end.

(** [m.name = v] on a module that has been imported. *)
Definition set_attribute (m name : string) (v : PyObj)
    (modules : gmap string (gmap string PyObj)) : gmap string (gmap string PyObj) :=
  alter (insert name v) m modules.

(** Lines 4 and 88-96: the modules afterwards, or the exception that
    ends the loading of the handler module. *)
Definition import_credentials (modules : gmap string (gmap string PyObj))
  : result (gmap string (gmap string PyObj)) :=
  match import_module modules "dbt.adapters.base" with
  | Raised e => Raised e
  | Ok _ =>
      match import_from modules "dbt.adapters.base" "Credentials" with
      | Ok _ => Ok modules
      | Raised _ =>
          match import_from modules "dbt.adapters.contracts.connection"
                  "Credentials" with
          | Ok Credentials =>
              Ok (set_attribute "dbt.adapters.base" "Credentials" Credentials
                    modules)
          | Raised _ => Ok modules
          end
      end
  end.

End Imports.

(** ** Running the handler *)

Section Invocations.
Context {Ext Ctx : Type} {EX : Externals Ext}.

(** Lines 266-273, the local test: the context is the empty dict. *)
Definition test_event : Event :=
  <["cli_args" := ["--select"; "+my_second_dbt_model"]]>
    {[ "command" := ["build"] ]}.

Definition main (test_context : Ctx) : World Ext Ctx -> result response * World Ext Ctx :=
  handler test_event test_context.

(** One loaded process serving requests one after the other, as the
    runtime does with a warm instance: the outcome of each invocation,
    and the process afterwards.  An invocation that raises is reported
    and the next one runs in the same process. *)
Fixpoint serve (requests : list (Event * Ctx)) (w : World Ext Ctx)
  : list (result response) * World Ext Ctx :=
  match requests with
  | [] => ([], w)
  | (event, context) :: rest =>
      let '(r, w1) := handler event context w in
      let '(rs, w2) := serve rest w1 in
      (r :: rs, w2)
  end.

(** The argument vectors the two transfers are started with (lines
    149-156 and 191-199). *)
Definition persist_argv (w : World Ext Ctx) : list string :=
  ["aws"; "s3"; "sync"; "/tmp/target";
   s3_path_of (environ w !! "DBT_STATE_BUCKET")
     (default "dev" (environ w !! "ENVIRONMENT"));
   "--delete"; "--quiet"].

Definition restore_argv (w : World Ext Ctx) : list string :=
  ["aws"; "s3"; "sync";
   s3_path_of (environ w !! "DBT_STATE_BUCKET")
     (default "dev" (environ w !! "ENVIRONMENT"));
   "/tmp/target-base"; "--quiet"].

(** Persist, then restore: the two operations run in this order. *)
Definition persist_then_restore (w : World Ext Ctx) : World Ext Ctx :=
  snd (restore_target_from_s3 (snd (sync_target_to_s3 w))).

End Invocations.

(** * Properties of the shim *)

Section ShimProperties.
Import Shim.

(** The state invariants hold at construction and after every call that
    returns. *)
Lemma Semaphore_new_wf value s :
  Semaphore_new value = Built s -> Semaphore_wf s.
Proof.
  unfold Semaphore_new, Semaphore_wf.
  destruct (Z.ltb_spec value 0); [discriminate|].
  intros [= <-]. simpl. lia.
Qed.

Lemma BoundedSemaphore_new_wf value s :
  BoundedSemaphore_new value = Built s -> BoundedSemaphore_wf s.
Proof.
  unfold BoundedSemaphore_new, BoundedSemaphore_wf.
  destruct (Z.ltb_spec value 0); [discriminate|].
  intros [= <-]. simpl. lia.
Qed.

Lemma BoundedSemaphore_acquire_wf s v s' :
  BoundedSemaphore_wf s ->
  BoundedSemaphore_acquire s = Returns v s' -> BoundedSemaphore_wf s'.
Proof.
  unfold BoundedSemaphore_acquire, BoundedSemaphore_wf.
  destruct (Z.eqb_spec (_sem_value s) 0); [discriminate|].
  intros Hwf [= _ <-]. simpl. lia.
Qed.

Lemma BoundedSemaphore_release_wf s v s' :
  BoundedSemaphore_wf s ->
  BoundedSemaphore_release s = Returns v s' -> BoundedSemaphore_wf s'.
Proof.
  unfold BoundedSemaphore_release, BoundedSemaphore_wf.
  destruct (Z.ltb_spec (_initial_value s) (_sem_value s + 1)); [discriminate|].
  intros Hwf [= _ <-]. simpl. lia.
Qed.

Lemma RLock_acquire_wf me l v l' :
  RLock_acquire me l = Returns v l' -> RLock_wf l'.
Proof.
  unfold RLock_acquire, RLock_wf.
  destruct (owner l) as [t|]; [destruct (Nat.eqb t me)|];
    intros [= _ <-]; simpl; lia.
Qed.

Lemma RLock_release_wf me l v l' :
  RLock_wf l -> RLock_release me l = Returns v l' -> RLock_wf l'.
Proof.
  unfold RLock_release, RLock_wf.
  destruct (owner l) as [t|], (count l) as [|[|n]]; try discriminate;
    destruct (Nat.eqb t me); try discriminate;
    intros Hwf [= _ <-]; simpl; lia.
Qed.

(** Scoped acquisition with an empty body, kind by kind: when
    [__enter__] returns, [__exit__] finds the primitive held and returns
    too, and the primitive is back in the state it had. *)
Lemma scoped_MockLock m :
  scoped MockLock_enter MockLock_exit pass m
  = if locked (l_lock m) then Blocks else Returns tt m.
Proof. destruct m as [[[|]]]; reflexivity. Qed.

Lemma scoped_MockRLock_body {V} me (body : MockRLock -> outcome MockRLock V) m v :
  RLock_wf (rl_lock m) ->
  owner (rl_lock m) = None \/ owner (rl_lock m) = Some me ->
  body (mkMockRLock (mkRLock (Some me) (S (count (rl_lock m)))))
  = Returns v (mkMockRLock (mkRLock (Some me) (S (count (rl_lock m))))) ->
  scoped (MockRLock_enter me) (MockRLock_exit me) body m = Returns v m.
Proof.
  destruct m as [[o c]]; unfold RLock_wf; simpl.
  intros Hwf Ho Hbody.
  unfold scoped, MockRLock_enter, MockRLock_exit, RLock_acquire; simpl.
  destruct Ho as [-> | ->]; simpl in *.
  - subst c. rewrite Hbody. unfold RLock_release; simpl.
    by rewrite Nat.eqb_refl.
  - rewrite Nat.eqb_refl; simpl. rewrite Hbody.
    unfold RLock_release; simpl. rewrite Nat.eqb_refl.
    destruct c; [lia | reflexivity].
Qed.

Lemma scoped_MockRLock_raised me m :
  raised (scoped (MockRLock_enter me) (MockRLock_exit me) pass m) = false.
Proof.
  destruct m as [[[t|] c]];
    unfold scoped, MockRLock_enter, MockRLock_exit, RLock_acquire, pass; simpl.
  - destruct (Nat.eqb t me) eqn:E; simpl; [|reflexivity].
    unfold RLock_release; simpl. rewrite Nat.eqb_refl. reflexivity.
  - unfold RLock_release; simpl. rewrite Nat.eqb_refl. reflexivity.
Qed.

Lemma scoped_MockSemaphore m :
  scoped MockSemaphore_enter MockSemaphore_exit pass m
  = if _value (s_sem m) =? 0 then Blocks else Returns tt m.
Proof.
  destruct m as [[v]].
  unfold scoped, MockSemaphore_enter, MockSemaphore_exit, Semaphore_acquire,
    Semaphore_release, pass; simpl.
  destruct (v =? 0); simpl; [reflexivity|].
  do 3 f_equal. lia.
Qed.

Lemma scoped_MockBoundedSemaphore m :
  BoundedSemaphore_wf (b_sem m) ->
  scoped MockBoundedSemaphore_enter MockBoundedSemaphore_exit pass m
  = if _sem_value (b_sem m) =? 0 then Blocks else Returns tt m.
Proof.
  destruct m as [[v i]]. unfold BoundedSemaphore_wf; simpl. intros Hwf.
  unfold scoped, MockBoundedSemaphore_enter, MockBoundedSemaphore_exit,
    BoundedSemaphore_acquire, BoundedSemaphore_release, pass; simpl.
  destruct (v =? 0); simpl; [reflexivity|].
  destruct (Z.ltb_spec i (v - 1 + 1)); [lia|]. simpl.
  do 3 f_equal. lia.
Qed.

(** The reading of C4 as it is worded fails: a semaphore built with a
    negative initial count raises [ValueError], for the plain and for
    the bounded kind. *)
Lemma MockSemaphore_negative_value_fails :
  MockSemaphore_init (PyObj := unit) (Some (-1)) [] []
  = Fails (ValueError "semaphore initial value must be >= 0")
  /\ MockBoundedSemaphore_init (PyObj := unit) (Some (-1)) [] []
     = Fails (ValueError "semaphore initial value must be >= 0").
Proof. split; reflexivity. Qed.

(** C4 (amended): for the four shimmed kinds, construction takes any
    positional and keyword arguments, drops them, and succeeds whenever
    the semaphore's initial count (1 when not given) is not negative;
    scoped acquisition with [with] never raises, from any state the
    primitive can be in; nested scoped acquisition of the re-entrant lock
    by one thread succeeds and leaves the lock free; and [_is_owned]
    answers [True] whatever the state and the calling thread. *)
Theorem shim_primitives_safe {PyObj : Type}
    (args : list PyObj) (kwargs : list (string * PyObj)) (value : option Z)
    (me : thread) (l : MockLock) (r : MockRLock) (s : MockSemaphore)
    (b : MockBoundedSemaphore) :
  0 <= default 1 value ->
  BoundedSemaphore_wf (b_sem b) ->
  (MockLock_init args kwargs = Built (mkMockLock Lock_new)
   /\ MockRLock_init args kwargs = Built (mkMockRLock RLock_new)
   /\ MockSemaphore_init value args kwargs
      = Built (mkMockSemaphore (mkSemaphore (default 1 value)))
   /\ MockBoundedSemaphore_init value args kwargs
      = Built (mkMockBounded (mkBounded (default 1 value) (default 1 value))))
  /\ (raised (scoped MockLock_enter MockLock_exit pass l) = false
      /\ raised (scoped (MockRLock_enter me) (MockRLock_exit me) pass r) = false
      /\ raised (scoped MockSemaphore_enter MockSemaphore_exit pass s) = false
      /\ raised (scoped MockBoundedSemaphore_enter MockBoundedSemaphore_exit
                   pass b) = false)
  /\ scoped (MockRLock_enter me) (MockRLock_exit me)
       (scoped (MockRLock_enter me) (MockRLock_exit me) pass)
       (mkMockRLock RLock_new)
     = Returns tt (mkMockRLock RLock_new)
  /\ MockRLock_is_owned me r = true.
Proof.
  intros Hvalue Hb. repeat split.
  - unfold MockSemaphore_init, Semaphore_new.
    destruct (Z.ltb_spec (default 1 value) 0); [lia | reflexivity].
  - unfold MockBoundedSemaphore_init, BoundedSemaphore_new.
    destruct (Z.ltb_spec (default 1 value) 0); [lia | reflexivity].
  - rewrite scoped_MockLock. by destruct (locked (l_lock l)).
  - apply scoped_MockRLock_raised.
  - rewrite scoped_MockSemaphore. by destruct (_value (s_sem s) =? 0).
  - rewrite scoped_MockBoundedSemaphore by done.
    by destruct (_sem_value (b_sem b) =? 0).
  - apply scoped_MockRLock_body; [reflexivity | by left |].
    apply (scoped_MockRLock_body me pass (mkMockRLock (mkRLock (Some me) 1)));
      [simpl; unfold RLock_wf; simpl; lia | by right | reflexivity].
Qed.

Lemma shim_primitives_safe_witness :
  0 <= default 1 (Some 2)
  /\ BoundedSemaphore_wf (mkBounded 1 2)
  /\ MockBoundedSemaphore_init (Some 2) ["ctx"] [("ctx", "spawn")]
     = Built (mkMockBounded (mkBounded 2 2))
  /\ raised (scoped MockBoundedSemaphore_enter MockBoundedSemaphore_exit pass
               (mkMockBounded (mkBounded 1 2))) = false.
Proof.
  assert (H1 : 0 <= default 1 (Some 2)) by (simpl; lia).
  assert (H2 : BoundedSemaphore_wf (mkBounded 1 2))
    by (unfold BoundedSemaphore_wf; simpl; lia).
  destruct (shim_primitives_safe ["ctx"] [("ctx", "spawn")] (Some 2) 0%nat
              (mkMockLock Lock_new) (mkMockRLock RLock_new)
              (mkMockSemaphore (mkSemaphore 2)) (mkMockBounded (mkBounded 1 2))
              H1 H2) as [(_ & _ & _ & Hc) [(_ & _ & _ & Hs) _]].
  exact (conj H1 (conj H2 (conj Hc Hs))).
Defined.

End ShimProperties.

(** * Properties of the controller *)

Section ControllerProperties.
Context {Ext Ctx : Type} {EX : Externals Ext}.
Implicit Types (w : World Ext Ctx) (event : Event) (context : Ctx).

(** Unfolding the statements of the three functions. *)
Ltac statements :=
  unfold restore_target_from_s3, sync_target_to_s3, handler, try_except,
    bind, ret, raise, say, print, getenv, getenv_or, run, invoke,
    read_default_args.

(** ** Module-level values *)

Lemma set_environ_other env key :
  key ∉ ["DBT_USER_CONFIG_DIR"; "DBT_PROFILES_DIR"; "DBT_TARGET_PATH";
         "DBT_LOG_PATH"] ->
  set_environ env !! key = env !! key.
Proof.
  intros Hkey. unfold set_environ.
  rewrite !lookup_insert_ne; [done | | | |];
    intros <-; apply Hkey; set_solver.
Qed.

Lemma default_args_load env (x : Ext) :
  default_args (load (Ctx := Ctx) env x) = make_default_args env.
Proof.
  unfold load, make_default_args; simpl.
  rewrite set_environ_other; [done|].
  rewrite !not_elem_of_cons. repeat split; try discriminate. apply not_elem_of_nil.
Qed.

(** ** What one invocation does *)

Lemma handler_result event context w :
  fst (handler event context w)
  = if success (tool_result event w)
    then Ok {| statusCode := 200; body := "DBT build completed" |}
    else Raised (Exception "DBT build failed").
Proof.
  unfold tool_result, tool_args. statements. simpl.
  destruct (dbt_invoke _ _ _) as [[[|]] x]; reflexivity.
Qed.

Lemma handler_frame event context w :
  let w' := snd (handler event context w) in
  environ w' = environ w
  /\ default_args w' = default_args w
  /\ spawned w' = spawned w
  /\ invoked w' = invoked w ++ [tool_args event w].
Proof.
  unfold tool_args. statements. simpl.
  destruct (dbt_invoke _ _ _) as [[[|]] x]; simpl; done.
Qed.

(** ** Restore and persist *)

Lemma truthy_configured (b : string) : b <> "" -> truthy (Some b) = true.
Proof.
  intros Hb. simpl. apply negb_true_iff. by apply String.eqb_neq.
Qed.

(** With a falsy bucket name (unset, or set to the empty string) each
    operation prints its one line and changes nothing else. *)
Lemma restore_unconfigured w :
  truthy (environ w !! "DBT_STATE_BUCKET") = false ->
  restore_target_from_s3 w
  = (Ok tt,
     logged (Text "INFO: DBT_STATE_BUCKET not set. Starting with clean state.") w).
Proof. intros H. statements. simpl. by rewrite H. Qed.

Lemma sync_unconfigured w :
  truthy (environ w !! "DBT_STATE_BUCKET") = false ->
  sync_target_to_s3 w
  = (Ok tt,
     logged (Text "WARNING: DBT_STATE_BUCKET not set. Skipping state sync.") w).
Proof. intros H. statements. simpl. by rewrite H. Qed.

(** C5: whatever the environment holds and however the transfer ends
    (any exit code, or an exception of [subprocess.run]), the restore
    and the persist operation both complete: neither raises. *)
Theorem transfers_never_raise w :
  fst (restore_target_from_s3 w) = Ok tt
  /\ fst (sync_target_to_s3 w) = Ok tt.
Proof.
  split; statements; simpl;
    destruct (truthy (environ w !! "DBT_STATE_BUCKET")); simpl; try done;
    destruct (subprocess_run _ _) as [[p|e] x]; simpl; try done;
    by destruct (returncode p =? 0).
Qed.

(** C6: with DBT_STATE_BUCKET unset, restore and persist return without
    raising, start no transfer and leave everything outside the process
    as it was; restore prints its INFO line, persist its WARNING line. *)
Theorem unset_bucket_is_noop w :
  environ w !! "DBT_STATE_BUCKET" = None ->
  let wr := snd (restore_target_from_s3 w) in
  let ws := snd (sync_target_to_s3 w) in
  (fst (restore_target_from_s3 w) = Ok tt
   /\ spawned wr = spawned w /\ ext wr = ext w
   /\ printed wr
      = printed w
        ++ [Text "INFO: DBT_STATE_BUCKET not set. Starting with clean state."])
  /\ (fst (sync_target_to_s3 w) = Ok tt
      /\ spawned ws = spawned w /\ ext ws = ext w
      /\ printed ws
         = printed w
           ++ [Text "WARNING: DBT_STATE_BUCKET not set. Skipping state sync."]).
Proof.
  intros Hunset.
  assert (Hfalsy : truthy (environ w !! "DBT_STATE_BUCKET") = false)
    by (by rewrite Hunset).
  simpl. rewrite (restore_unconfigured w Hfalsy), (sync_unconfigured w Hfalsy).
  done.
Qed.

(** With a bucket configured the persist operation starts exactly one
    transfer, the full mirror [aws s3 sync /tmp/target
    s3://<bucket>/<environment>/target/ --delete --quiet]; when that
    command completes, its exit code alone selects between the success
    line and the warning lines with the command's output, and an
    exception of the call gives the ERROR line. *)
Theorem persist_transfer w (bucket : string) :
  environ w !! "DBT_STATE_BUCKET" = Some bucket ->
  bucket <> "" ->
  let environment := default "dev" (environ w !! "ENVIRONMENT") in
  let s3_path := "s3://" +:+ bucket +:+ "/" +:+ environment +:+ "/target/" in
  let argv :=
    ["aws"; "s3"; "sync"; "/tmp/target"; s3_path; "--delete"; "--quiet"] in
  let w' := snd (sync_target_to_s3 w) in
  spawned w' = spawned w ++ [argv]
  /\ ext w' = snd (subprocess_run argv (ext w))
  /\ printed w'
     = printed w
       ++ Text ("Syncing dbt target to " +:+ s3_path)
          :: match fst (subprocess_run argv (ext w)) with
             | Completed p =>
                 if returncode p =? 0
                 then [Text ("✓ Successfully synced dbt target to " +:+ s3_path)]
                 else [Text "WARNING: Failed to sync target to S3";
                       Text ("stdout: " +:+ stdout p);
                       Text ("stderr: " +:+ stderr p)]
             | RunRaises e =>
                 [Text ("ERROR: Failed to sync target to S3: " +:+ exc_msg e)]
             end.
Proof.
  intros Hbucket Hne. simpl. statements. simpl.
  rewrite Hbucket, (truthy_configured _ Hne). simpl.
  unfold s3_path_of; simpl.
  destruct (subprocess_run _ _) as [[p|e] x]; simpl.
  - destruct (returncode p =? 0); simpl; by rewrite <- ?app_assoc.
  - by rewrite <- ?app_assoc.
Qed.

(** ** The handler *)

(** C2 (amended): the handler returns an invocation result only when the
    tool run succeeds, and that result is status code 200 with the body
    message; when the tool run fails no result is returned, the handler
    raises.  The status code 500 is never produced. *)
Theorem handler_status event context w :
  fst (handler event context w)
  = if success (tool_result event w)
    then Ok {| statusCode := 200; body := "DBT build completed" |}
    else Raised (Exception "DBT build failed").
Proof.
  unfold tool_result, tool_args. statements. simpl.
  destruct (dbt_invoke _ _ _) as [res x].
  destruct (success res) eqn:Hres; simpl; rewrite ?Hres; reflexivity.
Qed.

(** C3: when the tool run fails, the handler starts no transfer and
    raises [Exception("DBT build failed")] to its caller. *)
Theorem failed_run_raises event context w :
  success (tool_result event w) = false ->
  fst (handler event context w) = Raised (Exception "DBT build failed")
  /\ spawned (snd (handler event context w)) = spawned w.
Proof.
  intros Hfail. rewrite handler_result, Hfail. split; [done|].
  apply (handler_frame event context w).
Qed.

(** C7 (amended): when the request has no command the default [build]
    is applied, and whenever the request does not give the command as an
    empty list, the argument list handed to the tool begins with the
    command tokens, at least one.  (A command given as an empty list is
    passed on as it is.) *)
Theorem command_tokens event context w :
  event !! "command" <> Some [] ->
  exists token rest,
    command_of event = token :: rest
    /\ (event !! "command" = None -> token :: rest = ["build"])
    /\ invoked (snd (handler event context w))
       = invoked w ++ [token :: rest ++ default_args w ++ cli_args_of event].
Proof.
  intros Hgiven.
  destruct (handler_frame event context w) as (_ & _ & _ & Hinv).
  rewrite Hinv. unfold tool_args, command_of, dict_get.
  destruct (event !! "command") as [[|token rest]|]; simpl.
  - congruence.
  - exists token, rest. by repeat split.
  - exists "build", []. by repeat split.
Qed.


(** C10: the handler changes neither the module's fixed argument list
    nor the environment variables, and two consecutive invocations with
    the same request hand the same argument list to the tool. *)
Theorem handler_keeps_fixed_arguments event context context' w :
  let w1 := snd (handler event context w) in
  let w2 := snd (handler event context' w1) in
  (environ w1 = environ w /\ default_args w1 = default_args w)
  /\ invoked w1 = invoked w ++ [tool_args event w]
  /\ invoked w2 = invoked w ++ [tool_args event w; tool_args event w].
Proof.
  simpl.
  destruct (handler_frame event context w) as (Henv & Hargs & _ & Hinv).
  destruct (handler_frame event context' (snd (handler event context w)))
    as (_ & _ & _ & Hinv').
  repeat split; try done.
  rewrite Hinv', Hinv. unfold tool_args. rewrite Hargs.
  by rewrite <- app_assoc.
Qed.

End ControllerProperties.

(** ** The fixed arguments *)

(** The path-valued options of C9 as it is worded: the value of every
    option other than the target selector lies under /tmp.  It fails for
    the profile directory, which is the working directory. *)
Lemma profiles_dir_not_under_tmp :
  ~ (forall k v, (k, v) ∈ options (make_default_args ∅) ->
                 k <> "--target" -> under_tmp v = true).
Proof.
  intros H. specialize (H "--profiles-dir" ".").
  assert (Hin : ("--profiles-dir", ".") ∈ options (make_default_args ∅))
    by (simpl; set_solver).
  specialize (H Hin ltac:(discriminate)). discriminate.
Qed.

(** C9 (amended): in the fixed arguments the log path and the output
    path are pinned under the writable /tmp mount, as are the
    environment variables DBT_LOG_PATH, DBT_TARGET_PATH and
    DBT_USER_CONFIG_DIR; the profile directory is the working directory
    [.], in the arguments and in DBT_PROFILES_DIR; the target selector
    occurs twice, the literal [dev] first and the value of ENVIRONMENT
    ([dev] when unset) after it, so the latter is the last one given. *)
Theorem fixed_arguments (env : gmap string string) :
  let args := make_default_args env in
  let selected := default "dev" (env !! "ENVIRONMENT") in
  (effective "--log-path" args = Some "/tmp/logs"
   /\ under_tmp "/tmp/logs" = true
   /\ effective "--target-path" args = Some "/tmp/target"
   /\ under_tmp "/tmp/target" = true)
  /\ (effective "--profiles-dir" args = Some "."
      /\ under_tmp "." = false)
  /\ (args !! 0%nat = Some "--target" /\ args !! 1%nat = Some "dev"
      /\ args !! 6%nat = Some "--target" /\ args !! 7%nat = Some selected
      /\ option_values "--target" args = ["dev"; selected]
      /\ effective "--target" args = Some selected)
  /\ (set_environ env !! "DBT_LOG_PATH" = Some "/tmp/logs"
      /\ set_environ env !! "DBT_TARGET_PATH" = Some "/tmp/target"
      /\ set_environ env !! "DBT_USER_CONFIG_DIR" = Some "/tmp"
      /\ under_tmp "/tmp" = true
      /\ set_environ env !! "DBT_PROFILES_DIR" = Some ".").
Proof.
  simpl. repeat split; unfold set_environ; by simplify_map_eq.
Qed.

(** ** The claims on concrete runs *)

(** C1, where the handler departs from it: with a bucket configured and
    a successful tool run, the handler prints "Uploading state to S3..."
    and returns its result, and it has started no transfer: nothing was
    spawned and nothing reached the bucket. *)
Lemma handler_starts_no_transfer :
  let EX := surroundings true (aws_exit 0) in
  let w := with_bucket EX in
  environ w !! "DBT_STATE_BUCKET" = Some "state-bucket"
  /\ success (tool_result (EX := EX) empty_event w) = true
  /\ fst (handler (EX := EX) empty_event tt w)
     = Ok {| statusCode := 200; body := "DBT build completed" |}
  /\ spawned (snd (handler (EX := EX) empty_event tt w)) = []
  /\ ext (snd (handler (EX := EX) empty_event tt w)) = 0%nat
  /\ printed (snd (handler (EX := EX) empty_event tt w))
     = [ShowEvent "Event:" empty_event; ShowContext "Context:" tt;
        Text "Running dbt build --select +my_second_dbt_model";
        Text "✓ DBT build succeeded"; Text "Uploading state to S3..."].
Proof. vm_compute. done. Qed.

Lemma persist_transfer_witness :
  let EX := surroundings true (aws_exit 1) in
  let w := with_bucket EX in
  spawned (snd (sync_target_to_s3 (EX := EX) w))
  = [["aws"; "s3"; "sync"; "/tmp/target"; "s3://state-bucket/dev/target/";
      "--delete"; "--quiet"]]
  /\ ext (snd (sync_target_to_s3 (EX := EX) w)) = 0%nat
  /\ printed (snd (sync_target_to_s3 (EX := EX) w))
     = [Text "Syncing dbt target to s3://state-bucket/dev/target/";
        Text "WARNING: Failed to sync target to S3";
        Text "stdout: "; Text "stderr: fatal error"].
Proof.
  assert (H1 : environ (with_bucket (surroundings true (aws_exit 1)))
               !! "DBT_STATE_BUCKET" = Some "state-bucket")
    by (vm_compute; reflexivity).
  assert (H2 : "state-bucket" <> "") by discriminate.
  exact (persist_transfer (EX := surroundings true (aws_exit 1))
           (with_bucket (surroundings true (aws_exit 1))) "state-bucket" H1 H2).
Defined.

Lemma unset_bucket_is_noop_witness :
  let EX := surroundings true aws_missing in
  let w := without_bucket EX in
  environ w !! "DBT_STATE_BUCKET" = None
  /\ printed (snd (restore_target_from_s3 (EX := EX) w))
     = [Text "INFO: DBT_STATE_BUCKET not set. Starting with clean state."]
  /\ printed (snd (sync_target_to_s3 (EX := EX) w))
     = [Text "WARNING: DBT_STATE_BUCKET not set. Skipping state sync."].
Proof.
  assert (H : environ (without_bucket (surroundings true aws_missing))
              !! "DBT_STATE_BUCKET" = None) by (vm_compute; reflexivity).
  destruct (unset_bucket_is_noop (EX := surroundings true aws_missing)
              (without_bucket (surroundings true aws_missing)) H)
    as ((_ & _ & _ & Hr) & (_ & _ & _ & Hs)).
  exact (conj H (conj Hr Hs)).
Defined.

(** The restore operation on the three transfer outcomes. *)
Example restore_exit_0 :
  let EX := surroundings true (aws_exit 0) in
  restore_target_from_s3 (EX := EX) (with_bucket EX)
  = (Ok tt,
     {| environ := environ (with_bucket EX);
        default_args := default_args (with_bucket EX);
        ext := 1%nat;
        printed :=
          [Text "Restoring previous dbt state from s3://state-bucket/dev/target/";
           Text "✓ Successfully restored previous state to /tmp/target-base"];
        spawned := [["aws"; "s3"; "sync"; "s3://state-bucket/dev/target/";
                     "/tmp/target-base"; "--quiet"]];
        invoked := [] |}).
Proof. reflexivity. Qed.

Example restore_exit_1 :
  let EX := surroundings true (aws_exit 1) in
  printed (snd (restore_target_from_s3 (EX := EX) (with_bucket EX)))
  = [Text "Restoring previous dbt state from s3://state-bucket/dev/target/";
     Text "INFO: No previous state found in S3 (first run or empty bucket)"].
Proof. reflexivity. Qed.

Example restore_aws_missing :
  let EX := surroundings true aws_missing in
  restore_target_from_s3 (EX := EX) (with_bucket EX)
  = (Ok tt,
     logged (Text "INFO: Failed to restore state from S3: [Errno 2] No such file or directory: 'aws'")
       (snd (run (EX := EX)
               ["aws"; "s3"; "sync"; "s3://state-bucket/dev/target/";
                "/tmp/target-base"; "--quiet"]
               (logged (Text "Restoring previous dbt state from s3://state-bucket/dev/target/")
                  (with_bucket EX))))).
Proof. reflexivity. Qed.

(** C2 as it is worded fails: when the tool run fails the handler
    returns no result at all, with status 500 or otherwise. *)
Lemma failed_run_returns_no_result :
  let EX := surroundings false (aws_exit 0) in
  success (tool_result (EX := EX) empty_event (without_bucket EX)) = false
  /\ fst (handler (EX := EX) empty_event tt (without_bucket EX))
     = Raised (Exception "DBT build failed")
  /\ ~ (exists r, fst (handler (EX := EX) empty_event tt (without_bucket EX))
                  = Ok r /\ statusCode r = 500).
Proof.
  repeat split; try (vm_compute; reflexivity).
  intros (r & Hr & _). vm_compute in Hr. discriminate.
Qed.

Lemma failed_run_raises_witness :
  let EX := surroundings false (aws_exit 0) in
  success (tool_result (EX := EX) run_event (with_bucket EX)) = false
  /\ fst (handler (EX := EX) run_event tt (with_bucket EX))
     = Raised (Exception "DBT build failed")
  /\ spawned (snd (handler (EX := EX) run_event tt (with_bucket EX)))
     = spawned (with_bucket EX).
Proof.
  assert (H : success (tool_result (EX := surroundings false (aws_exit 0))
                         run_event
                         (with_bucket (surroundings false (aws_exit 0))))
              = false) by reflexivity.
  exact (conj H (failed_run_raises (EX := surroundings false (aws_exit 0))
                   run_event tt _ H)).
Defined.

(** C7 as it is worded fails: a request whose command is the empty
    list reaches the tool with no command token, the argument list
    beginning with the fixed arguments. *)
Lemma empty_command_is_passed_on :
  let EX := surroundings true (aws_exit 0) in
  command_of no_command_event = []
  /\ invoked (snd (handler (EX := EX) no_command_event tt (without_bucket EX)))
     = [["--target"; "dev"; "--log-path"; "/tmp/logs"; "--target-path";
         "/tmp/target"; "--target"; "dev"; "--profiles-dir"; ".";
         "--select"; "+my_second_dbt_model"]].
Proof. split; vm_compute; reflexivity. Qed.

Lemma command_tokens_witness :
  let EX := surroundings true (aws_exit 0) in
  empty_event !! "command" <> Some []
  /\ exists token rest,
       command_of empty_event = token :: rest
       /\ (empty_event !! "command" = None -> token :: rest = ["build"])
       /\ invoked (snd (handler (EX := EX) empty_event tt (without_bucket EX)))
          = invoked (without_bucket EX)
            ++ [token :: rest ++ default_args (without_bucket EX)
                ++ cli_args_of empty_event].
Proof.
  assert (H : (empty_event : Event) !! "command" <> Some []) by discriminate.
  exact (conj H (command_tokens (EX := surroundings true (aws_exit 0))
                   empty_event tt _ H)).
Defined.


(** * Further properties of the shim *)

Section ShimUseProperties.
Import Shim.

(** The plain lock is not re-entrant: a thread that enters [with lock:]
    inside [with lock:] on the same [MockLock] waits for ever, whatever
    state the lock was in; nothing is raised. *)
Theorem nested_MockLock_blocks (m : MockLock) :
  scoped MockLock_enter MockLock_exit
    (scoped MockLock_enter MockLock_exit pass) m = Blocks.
Proof. destruct m as [[[|]]]; reflexivity. Qed.

(** The re-entrant lock can be entered to any depth by the thread that
    holds it (or by any thread when it is free): the nested [with]
    blocks all return and the lock is left exactly as it was. *)
Theorem nested_with_returns (me : thread) (depth : nat) (m : MockRLock) :
  RLock_wf (rl_lock m) ->
  owner (rl_lock m) = None \/ owner (rl_lock m) = Some me ->
  nested_with me depth m = Returns tt m.
Proof.
  revert m. induction depth as [|d IH]; intros m Hwf Hown; [reflexivity|].
  simpl. apply scoped_MockRLock_body; [done | done |].
  apply IH; [unfold RLock_wf; simpl; lia | by right].
Qed.

Lemma nested_with_returns_witness :
  nested_with 7%nat 5 (mkMockRLock (mkRLock (Some 7%nat) 2))
  = Returns tt (mkMockRLock (mkRLock (Some 7%nat) 2)).
Proof.
  apply (nested_with_returns 7%nat 5 (mkMockRLock (mkRLock (Some 7%nat) 2)));
    [unfold RLock_wf; simpl; lia | right; reflexivity].
Defined.

(** While one thread holds the re-entrant lock, another thread's
    [acquire()] waits and its [release()] raises [RuntimeError] without
    changing the lock; [_is_owned()] nevertheless answers [True] to that
    other thread. *)
Theorem MockRLock_held_by_other (t u : thread) (m : MockRLock) :
  owner (rl_lock m) = Some t ->
  t <> u ->
  MockRLock_acquire u m = Blocks
  /\ MockRLock_release u m
     = Raises (RuntimeError "cannot release un-acquired lock") m
  /\ MockRLock_is_owned u m = true.
Proof.
  destruct m as [[o c]]; simpl. intros -> Hne.
  apply Nat.eqb_neq in Hne.
  unfold MockRLock_acquire, MockRLock_release, MockRLock_enter, MockRLock_exit,
    RLock_acquire, RLock_release; simpl.
  rewrite Hne. destruct c; simpl; rewrite ?Hne; done.
Qed.

Lemma MockRLock_held_by_other_witness :
  MockRLock_acquire 2%nat (mkMockRLock (mkRLock (Some 1%nat) 1)) = Blocks
  /\ MockRLock_release 2%nat (mkMockRLock (mkRLock (Some 1%nat) 1))
     = Raises (RuntimeError "cannot release un-acquired lock")
         (mkMockRLock (mkRLock (Some 1%nat) 1))
  /\ MockRLock_is_owned 2%nat (mkMockRLock (mkRLock (Some 1%nat) 1)) = true.
Proof.
  apply (MockRLock_held_by_other 1%nat 2%nat
           (mkMockRLock (mkRLock (Some 1%nat) 1)));
    [reflexivity | discriminate].
Defined.

(** [release()] on a lock that nobody holds raises [RuntimeError], for
    the plain and for the re-entrant kind, and leaves the lock free. *)
Theorem release_of_free_lock_raises (me : thread) (l : MockLock) (r : MockRLock) :
  locked (l_lock l) = false ->
  owner (rl_lock r) = None ->
  MockLock_release l = Raises (RuntimeError "release unlocked lock") l
  /\ MockRLock_release me r
     = Raises (RuntimeError "cannot release un-acquired lock") r.
Proof.
  destruct l as [[b]], r as [[o c]]; simpl. intros -> ->. split; reflexivity.
Qed.

Lemma release_of_free_lock_raises_witness :
  MockLock_release (mkMockLock Lock_new)
  = Raises (RuntimeError "release unlocked lock") (mkMockLock Lock_new)
  /\ MockRLock_release 0%nat (mkMockRLock RLock_new)
     = Raises (RuntimeError "cannot release un-acquired lock")
         (mkMockRLock RLock_new).
Proof.
  apply (release_of_free_lock_raises 0%nat (mkMockLock Lock_new)
           (mkMockRLock RLock_new)); reflexivity.
Defined.

(** Counting: [k] acquisitions in a row on a semaphore whose counter is
    [n] all return when [k <= n], leaving [n - k], and wait otherwise. *)
Lemma acquire_times_counter (k n : nat) :
  acquire_times k (mkMockSemaphore (mkSemaphore (Z.of_nat n)))
  = if (k <=? n)%nat
    then Returns true (mkMockSemaphore (mkSemaphore (Z.of_nat (n - k))))
    else Blocks.
Proof.
  revert n. induction k as [|k IH]; intros n.
  - simpl. by rewrite Nat.sub_0_r.
  - simpl. unfold MockSemaphore_acquire, MockSemaphore_enter, Semaphore_acquire.
    simpl. destruct n as [|n]; [reflexivity|].
    destruct (Z.eqb_spec (Z.of_nat (S n)) 0); [lia|]. simpl.
    replace (Z.of_nat (S n) - 1) with (Z.of_nat n) by lia.
    rewrite IH. simpl. reflexivity.
Qed.

(** A semaphore built with initial count [n] admits exactly [n]
    acquisitions without a release: the first [n] return [True] and
    bring the counter to 0, one more waits. *)
Theorem MockSemaphore_admits_initial_count {PyObj : Type}
    (args : list PyObj) (kwargs : list (string * PyObj)) (n : nat) :
  exists m,
    MockSemaphore_init (Some (Z.of_nat n)) args kwargs = Built m
    /\ acquire_times n m = Returns true (mkMockSemaphore (mkSemaphore 0))
    /\ acquire_times (S n) m = Blocks.
Proof.
  exists (mkMockSemaphore (mkSemaphore (Z.of_nat n))). split; [|split].
  - unfold MockSemaphore_init, Semaphore_new. simpl.
    destruct (Z.ltb_spec (Z.of_nat n) 0); [lia | reflexivity].
  - rewrite acquire_times_counter, Nat.leb_refl. by rewrite Nat.sub_diag.
  - rewrite acquire_times_counter.
    destruct (Nat.leb_spec (S n) n); [lia | reflexivity].
Qed.

(** Releasing more often than acquiring: on a bounded semaphore just
    built, [release()] raises [ValueError] and the counter stays; on a
    plain semaphore it returns and the counter goes past the initial
    count. *)
Theorem release_without_acquire {PyObj : Type}
    (args : list PyObj) (kwargs : list (string * PyObj)) (value : option Z)
    (b : MockBoundedSemaphore) (s : MockSemaphore) :
  MockBoundedSemaphore_init value args kwargs = Built b ->
  MockSemaphore_init value args kwargs = Built s ->
  MockBoundedSemaphore_release b
  = Raises (ValueError "Semaphore released too many times") b
  /\ MockSemaphore_release s
     = Returns tt (mkMockSemaphore (mkSemaphore (default 1 value + 1))).
Proof.
  unfold MockBoundedSemaphore_init, MockSemaphore_init, BoundedSemaphore_new,
    Semaphore_new.
  destruct (default 1 value <? 0); simpl; [discriminate|].
  intros [= <-] [= <-]. split; [|reflexivity].
  unfold MockBoundedSemaphore_release, MockBoundedSemaphore_exit,
    BoundedSemaphore_release; simpl.
  destruct (Z.ltb_spec (default 1 value) (default 1 value + 1)); [done | lia].
Qed.

Lemma release_without_acquire_witness :
  MockBoundedSemaphore_release (mkMockBounded (mkBounded 1 1))
  = Raises (ValueError "Semaphore released too many times")
      (mkMockBounded (mkBounded 1 1))
  /\ MockSemaphore_release (mkMockSemaphore (mkSemaphore 1))
     = Returns tt (mkMockSemaphore (mkSemaphore (default 1 None + 1))).
Proof.
  apply (release_without_acquire (PyObj := unit) [] [] None
           (mkMockBounded (mkBounded 1 1)) (mkMockSemaphore (mkSemaphore 1)));
    reflexivity.
Defined.

(** One call on a bounded semaphore keeps its invariant and its bound. *)
Lemma bounded_call_wf c m :
  BoundedSemaphore_wf (b_sem m) ->
  match bounded_call c m with
  | Returns _ m' | Raises _ m' =>
      BoundedSemaphore_wf (b_sem m')
      /\ _initial_value (b_sem m') = _initial_value (b_sem m)
  | Blocks => True
  end.
Proof.
  destruct m as [[v i]]; unfold BoundedSemaphore_wf; simpl. intros Hwf.
  destruct c; unfold bounded_call, MockBoundedSemaphore_acquire,
    MockBoundedSemaphore_release, MockBoundedSemaphore_enter,
    MockBoundedSemaphore_exit, BoundedSemaphore_acquire,
    BoundedSemaphore_release; simpl.
  - destruct (Z.eqb_spec v 0); simpl; [done | lia].
  - destruct (Z.ltb_spec i (v + 1)); simpl; lia.
Qed.

(** Whatever sequence of [acquire()] and [release()] calls is made on a
    bounded semaphore after it is built, its counter stays between 0 and
    the initial count, and the bound stays the initial count. *)
Theorem bounded_counter_stays_in_range {PyObj : Type}
    (args : list PyObj) (kwargs : list (string * PyObj)) (value : option Z)
    (cs : list sem_call) (m0 m : MockBoundedSemaphore) :
  MockBoundedSemaphore_init value args kwargs = Built m0 ->
  bounded_after cs m0 = Some m ->
  0 <= _sem_value (b_sem m) <= default 1 value
  /\ _initial_value (b_sem m) = default 1 value.
Proof.
  intros Hinit Hafter.
  assert (Hwf0 : BoundedSemaphore_wf (b_sem m0)
                 /\ _initial_value (b_sem m0) = default 1 value).
  { unfold MockBoundedSemaphore_init, BoundedSemaphore_new in Hinit.
    destruct (Z.ltb_spec (default 1 value) 0); simpl in Hinit; [discriminate|].
    injection Hinit as <-. unfold BoundedSemaphore_wf; simpl. lia. }
  clear Hinit. revert m0 Hafter Hwf0.
  induction cs as [|c cs IH]; intros m0 Hafter [Hwf Hini].
  - injection Hafter as <-. unfold BoundedSemaphore_wf in Hwf. lia.
  - simpl in Hafter. pose proof (bounded_call_wf c m0 Hwf) as Hstep.
    destruct (bounded_call c m0) as [? m1|? m1|]; [| |discriminate];
      destruct Hstep as [Hwf1 Hini1];
      apply (IH m1 Hafter); split; [done|congruence|done|congruence].
Qed.

Lemma bounded_counter_stays_in_range_witness :
  0 <= _sem_value (b_sem (mkMockBounded (mkBounded 1 2))) <= default 1 (Some 2)
  /\ _initial_value (b_sem (mkMockBounded (mkBounded 1 2))) = default 1 (Some 2).
Proof.
  apply (bounded_counter_stays_in_range (PyObj := unit) [] [] (Some 2)
           [Release; Acquire; Acquire; Release; Acquire; Release; Release; Acquire]
           (mkMockBounded (mkBounded 2 2)) (mkMockBounded (mkBounded 1 2)));
    reflexivity.
Defined.

End ShimUseProperties.

(** * Properties of the module-level code *)


(** The two variables the transfers read are not among those set at
    load time. *)
Lemma set_environ_reads (env : gmap string string) :
  set_environ env !! "ENVIRONMENT" = env !! "ENVIRONMENT"
  /\ set_environ env !! "DBT_STATE_BUCKET" = env !! "DBT_STATE_BUCKET".
Proof. unfold set_environ. split; by simplify_map_eq. Qed.


Section ImportProperties.
Context {PyObj : Type}.
Implicit Types (modules : gmap string (gmap string PyObj)).

(** Once [dbt.adapters.base] can be imported, the imports of lines
    88-96 never raise.  Afterwards [dbt.adapters.base.Credentials] is
    the class the module already had, and otherwise the one of
    [dbt.adapters.contracts.connection] when that exists; a class that
    was there is never replaced, and no other module or attribute
    changes. *)
Theorem import_credentials_binds modules (base : gmap string PyObj) :
  modules !! "dbt.adapters.base" = Some base ->
  exists modules' base',
    import_credentials modules = Ok modules'
    /\ modules' !! "dbt.adapters.base" = Some base'
    /\ base' !! "Credentials"
       = match base !! "Credentials" with
         | Some c => Some c
         | None =>
             modules !! "dbt.adapters.contracts.connection"
               ≫= (fun attrs => attrs !! "Credentials")
         end
    /\ delete "Credentials" base' = delete "Credentials" base
    /\ delete "dbt.adapters.base" modules' = delete "dbt.adapters.base" modules.
Proof.
  intros Hbase. unfold import_credentials, import_from, import_module.
  rewrite Hbase.
  destruct (base !! "Credentials") as [c|] eqn:Hc.
  { exists modules, base. rewrite Hc. by repeat split. }
  destruct (modules !! "dbt.adapters.contracts.connection") as [attrs|] eqn:Hm;
    simpl.
  - destruct (attrs !! "Credentials") as [c|] eqn:Hattr.
    + exists (set_attribute "dbt.adapters.base" "Credentials" c modules),
        (<["Credentials" := c]> base).
      unfold set_attribute. repeat split.
      * by rewrite lookup_alter_eq, Hbase.
      * by rewrite lookup_insert_eq.
      * by rewrite delete_insert_eq.
      * rewrite delete_alter. by case_decide.
    + exists modules, base. rewrite Hc. by repeat split.
  - exists modules, base. rewrite Hc. by repeat split.
Qed.

End ImportProperties.

Lemma import_credentials_binds_witness :
  let modules : gmap string (gmap string string) :=
    <["dbt.adapters.contracts.connection" := {[ "Credentials" := "class" ]}]>
      {[ "dbt.adapters.base" := {[ "BaseAdapter" := "adapter" ]} ]} in
  exists modules' base',
    import_credentials modules = Ok modules'
    /\ modules' !! "dbt.adapters.base" = Some base'
    /\ base' !! "Credentials"
       = match ({[ "BaseAdapter" := "adapter" ]} : gmap string string)
               !! "Credentials" with
         | Some c => Some c
         | None =>
             modules !! "dbt.adapters.contracts.connection"
               ≫= (fun attrs => attrs !! "Credentials")
         end
    /\ delete "Credentials" base'
       = delete "Credentials" ({[ "BaseAdapter" := "adapter" ]} : gmap string string)
    /\ delete "dbt.adapters.base" modules' = delete "dbt.adapters.base" modules.
Proof.
  apply (import_credentials_binds
           (<["dbt.adapters.contracts.connection" := {[ "Credentials" := "class" ]}]>
              {[ "dbt.adapters.base" := {[ "BaseAdapter" := "adapter" ]} ]})
           {[ "BaseAdapter" := "adapter" ]}).
  vm_compute. reflexivity.
Defined.

(** * Further properties of the controller *)

Section InvocationProperties.
Context {Ext Ctx : Type} {EX : Externals Ext}.
Implicit Types (w : World Ext Ctx) (event : Event) (context : Ctx).

Ltac steps :=
  unfold restore_target_from_s3, sync_target_to_s3, handler, try_except,
    bind, ret, raise, say, print, getenv, getenv_or, run, invoke,
    read_default_args, logged.

(** What each operation leaves behind, in every case. *)
Lemma sync_effect w :
  let configured := truthy (environ w !! "DBT_STATE_BUCKET") in
  exists lines,
    snd (sync_target_to_s3 w)
    = {| environ := environ w; default_args := default_args w;
         ext := if configured then snd (subprocess_run (persist_argv w) (ext w))
                else ext w;
         printed := printed w ++ lines;
         spawned := spawned w ++ (if configured then [persist_argv w] else []);
         invoked := invoked w |}.
Proof.
  unfold persist_argv. steps. simpl.
  destruct (truthy (environ w !! "DBT_STATE_BUCKET")); simpl.
  - destruct (subprocess_run _ _) as [[p|e] x]; simpl.
    + destruct (returncode p =? 0); simpl;
        rewrite <- ?app_assoc; simpl; eexists; reflexivity.
    + rewrite <- ?app_assoc; simpl. eexists. reflexivity.
  - rewrite (app_nil_r (spawned w)). eexists. reflexivity.
Qed.

Lemma restore_effect w :
  let configured := truthy (environ w !! "DBT_STATE_BUCKET") in
  exists lines,
    snd (restore_target_from_s3 w)
    = {| environ := environ w; default_args := default_args w;
         ext := if configured then snd (subprocess_run (restore_argv w) (ext w))
                else ext w;
         printed := printed w ++ lines;
         spawned := spawned w ++ (if configured then [restore_argv w] else []);
         invoked := invoked w |}.
Proof.
  unfold restore_argv. steps. simpl.
  destruct (truthy (environ w !! "DBT_STATE_BUCKET")); simpl.
  - destruct (subprocess_run _ _) as [[p|e] x]; simpl.
    + destruct (returncode p =? 0); simpl;
        rewrite <- ?app_assoc; simpl; eexists; reflexivity.
    + rewrite <- ?app_assoc; simpl. eexists. reflexivity.
  - rewrite (app_nil_r (spawned w)). eexists. reflexivity.
Qed.

(** With a bucket configured the restore operation starts exactly one
    transfer, the download [aws s3 sync s3://<bucket>/<environment>/target/
    /tmp/target-base --quiet] (without [--delete]); it prints the success
    line on exit code 0 and an INFO line on any other exit code or on an
    exception, and never the output of the command. *)
Theorem restore_transfer w (bucket : string) :
  environ w !! "DBT_STATE_BUCKET" = Some bucket ->
  bucket <> "" ->
  let environment := default "dev" (environ w !! "ENVIRONMENT") in
  let s3_path := "s3://" +:+ bucket +:+ "/" +:+ environment +:+ "/target/" in
  let argv := ["aws"; "s3"; "sync"; s3_path; "/tmp/target-base"; "--quiet"] in
  let w' := snd (restore_target_from_s3 w) in
  spawned w' = spawned w ++ [argv]
  /\ ext w' = snd (subprocess_run argv (ext w))
  /\ printed w'
     = printed w
       ++ Text ("Restoring previous dbt state from " +:+ s3_path)
          :: match fst (subprocess_run argv (ext w)) with
             | Completed p =>
                 if returncode p =? 0
                 then [Text "✓ Successfully restored previous state to /tmp/target-base"]
                 else [Text "INFO: No previous state found in S3 (first run or empty bucket)"]
             | RunRaises e =>
                 [Text ("INFO: Failed to restore state from S3: " +:+ exc_msg e)]
             end.
Proof.
  intros Hbucket Hne. simpl. steps. simpl.
  rewrite Hbucket, (truthy_configured _ Hne). simpl.
  unfold s3_path_of; simpl.
  destruct (subprocess_run _ _) as [[p|e] x]; simpl.
  - destruct (returncode p =? 0); simpl; by rewrite <- ?app_assoc.
  - by rewrite <- ?app_assoc.
Qed.

(** DBT_STATE_BUCKET set to the empty string counts as not set: restore
    and persist print their one line and do nothing else. *)
Theorem empty_bucket_is_noop w :
  environ w !! "DBT_STATE_BUCKET" = Some "" ->
  restore_target_from_s3 w
  = (Ok tt,
     logged (Text "INFO: DBT_STATE_BUCKET not set. Starting with clean state.") w)
  /\ sync_target_to_s3 w
     = (Ok tt,
        logged (Text "WARNING: DBT_STATE_BUCKET not set. Skipping state sync.") w).
Proof.
  intros Hempty.
  assert (Hfalsy : truthy (environ w !! "DBT_STATE_BUCKET") = false)
    by (by rewrite Hempty).
  split; [by apply restore_unconfigured | by apply sync_unconfigured].
Qed.

(** Neither transfer operation changes the environment variables or the
    fixed arguments, neither calls the tool, each starts one process when
    the bucket name is non-empty and none otherwise, and each only adds
    to what has been printed. *)
Theorem transfers_frame w :
  let configured := truthy (environ w !! "DBT_STATE_BUCKET") in
  let wr := snd (restore_target_from_s3 w) in
  let ws := snd (sync_target_to_s3 w) in
  (environ wr = environ w /\ default_args wr = default_args w
   /\ invoked wr = invoked w
   /\ spawned wr = spawned w ++ (if configured then [restore_argv w] else [])
   /\ exists lines, printed wr = printed w ++ lines)
  /\ (environ ws = environ w /\ default_args ws = default_args w
      /\ invoked ws = invoked w
      /\ spawned ws = spawned w ++ (if configured then [persist_argv w] else [])
      /\ exists lines, printed ws = printed w ++ lines).
Proof.
  simpl.
  destruct (restore_effect w) as [lr Hr], (sync_effect w) as [ls Hs].
  rewrite Hr, Hs. simpl. repeat split; by eexists.
Qed.

(** Persist followed by restore, with a bucket configured: two
    transfers, the upload and then the download, and the download reads
    the very prefix the upload wrote, [s3://<bucket>/<environment>/target/];
    the upload takes [/tmp/target], the download fills [/tmp/target-base]. *)
Theorem persist_then_restore_same_prefix w (bucket : string) :
  environ w !! "DBT_STATE_BUCKET" = Some bucket ->
  bucket <> "" ->
  let s3_path :=
    "s3://" +:+ bucket +:+ "/" +:+ default "dev" (environ w !! "ENVIRONMENT")
    +:+ "/target/" in
  spawned (persist_then_restore w)
  = spawned w
    ++ [["aws"; "s3"; "sync"; "/tmp/target"; s3_path; "--delete"; "--quiet"];
        ["aws"; "s3"; "sync"; s3_path; "/tmp/target-base"; "--quiet"]].
Proof.
  intros Hbucket Hne. simpl. unfold persist_then_restore.
  destruct (sync_effect w) as [ls Hs].
  destruct (restore_effect (snd (sync_target_to_s3 w))) as [lr Hr].
  rewrite Hr, Hs. simpl.
  rewrite Hbucket, (truthy_configured _ Hne). simpl.
  unfold restore_argv, persist_argv, s3_path_of. simpl. rewrite Hbucket. simpl.
  by rewrite <- app_assoc.
Qed.

(** What an invocation prints and does outside: the event, the context
    and the command line, then on success the two lines ending with
    "Uploading state to S3..." (although nothing is uploaded) and on
    failure the one failure line; outside the process only the tool has
    run. *)
Theorem handler_trace event context w :
  let w' := snd (handler event context w) in
  printed w'
  = printed w
    ++ [ShowEvent "Event:" event; ShowContext "Context:" context;
        Text ("Running dbt " +:+ join " " (command_of event) +:+ " "
              +:+ join " " (cli_args_of event))]
    ++ (if success (tool_result event w)
        then [Text "✓ DBT build succeeded"; Text "Uploading state to S3..."]
        else [Text "✗ DBT build failed"])
  /\ ext w' = snd (dbt_invoke (environ w) (tool_args event w) (ext w))
  /\ spawned w' = spawned w.
Proof.
  unfold tool_result, tool_args. steps. simpl.
  destruct (dbt_invoke _ _ _) as [[[|]] x]; simpl;
    rewrite <- ?app_assoc; simpl; done.
Qed.


(** A request without "command" and without "cli_args" is served like
    the request of the local test at the end of the module, which spells
    out the defaults. *)
Theorem defaults_are_the_test_event event context test_context w :
  event !! "command" = None ->
  event !! "cli_args" = None ->
  tool_args event w
  = ["build"] ++ default_args w ++ ["--select"; "+my_second_dbt_model"]
  /\ tool_args event w = tool_args test_event w
  /\ fst (handler event context w) = fst (main test_context w)
  /\ invoked (snd (handler event context w))
     = invoked (snd (main test_context w)).
Proof.
  intros Hcommand Hcli.
  assert (Hargs : tool_args event w
                  = ["build"] ++ default_args w
                    ++ ["--select"; "+my_second_dbt_model"]).
  { unfold tool_args, command_of, cli_args_of, dict_get.
    by rewrite Hcommand, Hcli. }
  assert (Htest : tool_args test_event w = tool_args event w).
  { rewrite Hargs. unfold tool_args, command_of, cli_args_of, dict_get, test_event.
    by simplify_map_eq. }
  split; [done|]. split; [done|]. unfold main.
  rewrite !handler_result. unfold tool_result. rewrite Htest. split; [done|].
  destruct (handler_frame event context w) as (_ & _ & _ & ->).
  destruct (handler_frame test_event test_context w) as (_ & _ & _ & ->).
  by rewrite Htest.
Qed.

(** Outside the process an invocation leaves what the tool left. *)
Lemma handler_ext event context w :
  ext (snd (handler event context w))
  = snd (dbt_invoke (environ w) (tool_args event w) (ext w)).
Proof.
  unfold tool_args. steps. simpl.
  by destruct (dbt_invoke _ _ _) as [[[|]] x].
Qed.

(** The handler itself reads no environment variable: in two processes
    with the same fixed arguments and the same surroundings, whatever
    their environment variables (a bucket configured or not), a request
    gets the same argument list and starts no transfer; the environment
    reaches the outcome only through the tool, so the outcome and the
    effect outside are the same whenever the tool, which does see the
    environment, answers the request alike in both. *)
Theorem handler_ignores_environ event context w1 w2 :
  default_args w1 = default_args w2 ->
  ext w1 = ext w2 ->
  dbt_invoke (environ w1) (tool_args event w1) (ext w1)
  = dbt_invoke (environ w2) (tool_args event w2) (ext w2) ->
  tool_args event w1 = tool_args event w2
  /\ fst (handler event context w1) = fst (handler event context w2)
  /\ ext (snd (handler event context w1)) = ext (snd (handler event context w2))
  /\ spawned (snd (handler event context w1)) = spawned w1
  /\ spawned (snd (handler event context w2)) = spawned w2.
Proof.
  intros Hargs Hext Htool.
  split; [unfold tool_args; by rewrite Hargs|].
  rewrite !handler_result. unfold tool_result. rewrite Htool.
  split; [done|]. split.
  - by rewrite !handler_ext, Htool.
  - split; [apply (handler_frame event context w1)
           | apply (handler_frame event context w2)].
Qed.

(** A warm process serving any sequence of requests: every request gets
    an outcome, the tool is called once per request, in order, each time
    with the command, the fixed arguments the process was loaded with and
    the extra arguments; the environment variables and the fixed
    arguments never change and no transfer is ever started, whether
    invocations fail or not. *)
Theorem serve_trace (requests : list (Event * Ctx)) w :
  let w' := snd (serve requests w) in
  length (fst (serve requests w)) = length requests
  /\ invoked w' = invoked w ++ ((fun r => tool_args (fst r) w) <$> requests)
  /\ environ w' = environ w
  /\ default_args w' = default_args w
  /\ spawned w' = spawned w.
Proof.
  simpl. revert w. induction requests as [|[event context] rest IH]; intros w.
  - simpl. by rewrite app_nil_r.
  - simpl.
    destruct (handler_frame event context w) as (Henv & Hargs & Hsp & Hinv).
    destruct (handler event context w) as [r w1]; simpl in *.
    specialize (IH w1). destruct (serve rest w1) as [rs w2]; simpl in *.
    destruct IH as (Hlen & Hinv' & Henv' & Hargs' & Hsp').
    rewrite Hlen, Hinv', Hinv, Henv', Henv, Hargs', Hargs, Hsp', Hsp.
    rewrite <- app_assoc. simpl. repeat split.
    do 2 f_equal. apply list_fmap_ext. intros _ [e c] _. simpl.
    unfold tool_args. by rewrite Hargs.
Qed.

(** Right after loading, the state prefix and the tool's target agree:
    the target selector in force in the fixed arguments is the
    environment name under which the persist operation stores the state,
    ENVIRONMENT or [dev]. *)
Theorem target_matches_state_prefix (env : gmap string string) (x : Ext)
    (bucket : string) :
  env !! "DBT_STATE_BUCKET" = Some bucket ->
  bucket <> "" ->
  let w := load (Ctx := Ctx) env x in
  let environment := default "dev" (env !! "ENVIRONMENT") in
  effective "--target" (default_args w) = Some environment
  /\ spawned (snd (sync_target_to_s3 w))
     = [["aws"; "s3"; "sync"; "/tmp/target";
         "s3://" +:+ bucket +:+ "/" +:+ environment +:+ "/target/";
         "--delete"; "--quiet"]].
Proof.
  intros Hbucket Hne. cbv zeta. split.
  - rewrite default_args_load. reflexivity.
  - destruct (sync_effect (load (Ctx := Ctx) env x)) as [ls Hs]. rewrite Hs.
    simpl. unfold persist_argv, s3_path_of. simpl.
    destruct (set_environ_reads env) as [-> ->].
    by rewrite Hbucket, (truthy_configured _ Hne).
Qed.

End InvocationProperties.

(** ** The further properties on concrete runs *)

Lemma restore_transfer_witness :
  let EX := surroundings true aws_missing in
  let w := with_bucket EX in
  spawned (snd (restore_target_from_s3 (EX := EX) w))
  = [["aws"; "s3"; "sync"; "s3://state-bucket/dev/target/"; "/tmp/target-base";
      "--quiet"]]
  /\ ext (snd (restore_target_from_s3 (EX := EX) w)) = 0%nat
  /\ printed (snd (restore_target_from_s3 (EX := EX) w))
     = [Text "Restoring previous dbt state from s3://state-bucket/dev/target/";
        Text "INFO: Failed to restore state from S3: [Errno 2] No such file or directory: 'aws'"].
Proof.
  assert (H1 : environ (with_bucket (surroundings true aws_missing))
               !! "DBT_STATE_BUCKET" = Some "state-bucket")
    by (vm_compute; reflexivity).
  assert (H2 : "state-bucket" <> "") by discriminate.
  exact (restore_transfer (EX := surroundings true aws_missing)
           (with_bucket (surroundings true aws_missing)) "state-bucket" H1 H2).
Defined.

Lemma empty_bucket_is_noop_witness :
  let EX := surroundings true (aws_exit 0) in
  let w : World nat unit := load (EX := EX) {[ "DBT_STATE_BUCKET" := "" ]} 0%nat in
  restore_target_from_s3 (EX := EX) w
  = (Ok tt,
     logged (Text "INFO: DBT_STATE_BUCKET not set. Starting with clean state.") w)
  /\ sync_target_to_s3 (EX := EX) w
     = (Ok tt,
        logged (Text "WARNING: DBT_STATE_BUCKET not set. Skipping state sync.") w).
Proof.
  apply (empty_bucket_is_noop (EX := surroundings true (aws_exit 0))
           (load (EX := surroundings true (aws_exit 0))
              {[ "DBT_STATE_BUCKET" := "" ]} 0%nat)).
  vm_compute. reflexivity.
Defined.

Lemma persist_then_restore_same_prefix_witness :
  let EX := surroundings true (aws_exit 0) in
  let w : World nat unit :=
    load (EX := EX)
      (<["ENVIRONMENT" := "prod"]> {[ "DBT_STATE_BUCKET" := "state-bucket" ]})
      0%nat in
  spawned (persist_then_restore (EX := EX) w)
  = [["aws"; "s3"; "sync"; "/tmp/target"; "s3://state-bucket/prod/target/";
      "--delete"; "--quiet"];
     ["aws"; "s3"; "sync"; "s3://state-bucket/prod/target/"; "/tmp/target-base";
      "--quiet"]].
Proof.
  assert (H2 : "state-bucket" <> "") by discriminate.
  refine (persist_then_restore_same_prefix (EX := surroundings true (aws_exit 0))
            (load (EX := surroundings true (aws_exit 0))
               (<["ENVIRONMENT" := "prod"]>
                  {[ "DBT_STATE_BUCKET" := "state-bucket" ]}) 0%nat)
            "state-bucket" _ H2).
  vm_compute. reflexivity.
Defined.


Lemma defaults_are_the_test_event_witness :
  let EX := surroundings false (aws_exit 0) in
  let event : Event := {[ "cliargs" := ["--full-refresh"] ]} in
  let w := with_bucket EX in
  tool_args event w
  = ["build"] ++ default_args w ++ ["--select"; "+my_second_dbt_model"]
  /\ tool_args event w = tool_args test_event w
  /\ fst (handler (EX := EX) event tt w) = fst (main (EX := EX) tt w)
  /\ invoked (snd (handler (EX := EX) event tt w))
     = invoked (snd (main (EX := EX) tt w)).
Proof.
  apply (defaults_are_the_test_event (EX := surroundings false (aws_exit 0))
           {[ "cliargs" := ["--full-refresh"] ]} tt tt
           (with_bucket (surroundings false (aws_exit 0))));
    vm_compute; reflexivity.
Defined.

Lemma handler_ignores_environ_witness :
  let EX := reading_profiles_dir in
  tool_args run_event (with_bucket EX) = tool_args run_event (without_bucket EX)
  /\ fst (handler (EX := EX) run_event tt (with_bucket EX))
     = fst (handler (EX := EX) run_event tt (without_bucket EX))
  /\ ext (snd (handler (EX := EX) run_event tt (with_bucket EX)))
     = ext (snd (handler (EX := EX) run_event tt (without_bucket EX)))
  /\ spawned (snd (handler (EX := EX) run_event tt (with_bucket EX)))
     = spawned (with_bucket EX)
  /\ spawned (snd (handler (EX := EX) run_event tt (without_bucket EX)))
     = spawned (without_bucket EX).
Proof.
  apply (handler_ignores_environ (EX := reading_profiles_dir)
           run_event tt (with_bucket reading_profiles_dir)
           (without_bucket reading_profiles_dir));
    vm_compute; reflexivity.
Defined.

(** The tool does see the environment: the same request, fixed arguments
    and surroundings, with DBT_PROFILES_DIR as the module sets it and
    with the variable removed. *)
Example tool_sees_environ :
  let EX := reading_profiles_dir in
  let w := without_bucket EX in
  let w' : World nat unit :=
    {| environ := delete "DBT_PROFILES_DIR" (environ w);
       default_args := default_args w; ext := ext w; printed := printed w;
       spawned := spawned w; invoked := invoked w |} in
  fst (handler (EX := EX) run_event tt w)
  = Ok {| statusCode := 200; body := "DBT build completed" |}
  /\ fst (handler (EX := EX) run_event tt w')
     = Raised (Exception "DBT build failed").
Proof. split; vm_compute; reflexivity. Qed.

(** The message of a failed import names the first missing package. *)
Example import_messages :
  import_module (∅ : gmap string (gmap string string)) "dbt.adapters.base"
  = Raised (PyExc "ModuleNotFoundError" "No module named 'dbt'")
  /\ import_module
       ({[ "dbt.adapters.base" := ∅ ]} : gmap string (gmap string string))
       "dbt.adapters.contracts.connection"
     = Raised (PyExc "ModuleNotFoundError"
                 "No module named 'dbt.adapters.contracts'")
  /\ import_from
       ({[ "dbt.adapters.base" := ∅ ]} : gmap string (gmap string string))
       "dbt.adapters.base" "Credentials"
     = Raised (PyExc "ImportError"
                 "cannot import name 'Credentials' from 'dbt.adapters.base'")
  /\ dotted_prefixes "dbt.adapters.base" = ["dbt"; "dbt.adapters"; "dbt.adapters.base"].
Proof. repeat split; vm_compute; reflexivity. Qed.

(** Two calls of the patch: the names are bound to the classes of the
    second call, the other attribute is kept. *)
Example patched_twice :
  let s := mkSync 0 {[ "Condition" := Original "Condition" ]} in
  let s1 := patch_multiprocessing s in
  let s2 := patch_multiprocessing s1 in
  attributes s1 !! "Lock" = Some (Mock LockKind 0)
  /\ attributes s2 !! "Lock" = Some (Mock LockKind 1)
  /\ attributes s2 !! "Condition" = Some (Original "Condition")
  /\ attributes s2 !! "Event" = None
  /\ patch_calls s2 = 2%nat.
Proof. repeat split; vm_compute; reflexivity. Qed.

Lemma target_matches_state_prefix_witness :
  let EX := surroundings true (aws_exit 0) in
  let env : gmap string string :=
    <["ENVIRONMENT" := "prod"]> {[ "DBT_STATE_BUCKET" := "state-bucket" ]} in
  let w : World nat unit := load (EX := EX) env 0%nat in
  effective "--target" (default_args w) = Some (default "dev" (env !! "ENVIRONMENT"))
  /\ spawned (snd (sync_target_to_s3 (EX := EX) w))
     = [["aws"; "s3"; "sync"; "/tmp/target";
         "s3://" +:+ "state-bucket" +:+ "/" +:+ default "dev" (env !! "ENVIRONMENT")
         +:+ "/target/";
         "--delete"; "--quiet"]].
Proof.
  assert (H2 : "state-bucket" <> "") by discriminate.
  refine (target_matches_state_prefix (Ctx := unit)
            (EX := surroundings true (aws_exit 0))
            (<["ENVIRONMENT" := "prod"]> {[ "DBT_STATE_BUCKET" := "state-bucket" ]})
            0%nat "state-bucket" _ H2).
  vm_compute. reflexivity.
Defined.

(** A warm process serving three requests, the second of which gives an
    empty command. *)
Example serve_three :
  let EX := surroundings true (aws_exit 0) in
  let w := with_bucket EX in
  fst (serve (EX := EX)
         [(empty_event, tt); (no_command_event, tt); (run_event, tt)] w)
  = [Ok {| statusCode := 200; body := "DBT build completed" |};
     Ok {| statusCode := 200; body := "DBT build completed" |};
     Ok {| statusCode := 200; body := "DBT build completed" |}]
  /\ length (invoked (snd (serve (EX := EX)
                             [(empty_event, tt); (no_command_event, tt);
                              (run_event, tt)] w))) = 3%nat.
Proof. split; vm_compute; reflexivity. Qed.
